(** * Weather Information API: the fetch-and-map handler

    A shallow embedding of [prodesk_task_02.py]: the [WeatherInfo] schema,
    the handler [fetch_weather] and the endpoint [get_weather], followed by
    the properties of the handler.

    Python values are an inductive type, dictionaries are finite maps,
    exceptions are data, and the handler runs in a small monad that records
    the calls it makes on the outside world (the outbound GET, the two debug
    prints, the decoding of the response body). What the handler takes from
    outside the program, pydantic's validators and the interpreter's case
    mapping, are parameters with the laws the proofs rely on. *)

From Stdlib Require Import ZArith String Ascii PrimFloat.
From stdpp Require Import base option list gmap strings pretty.

Local Set Warnings "-register-all".
Local Open Scope Z_scope.
Local Open Scope string_scope.

(** ** Text *)

(** Python's [str] is embedded as [string], the UTF-8 bytes of the text. A
    character below 128 is an ASCII character and stands for itself; the
    functions of this module that map or test letters are those of the
    ASCII letters, and say what Python does on ASCII text only. *)
Module Text.

Definition is_upper (c : ascii) : bool :=
  ((65 <=? N_of_ascii c) && (N_of_ascii c <=? 90))%N.

Definition is_lower (c : ascii) : bool :=
  ((97 <=? N_of_ascii c) && (N_of_ascii c <=? 122))%N.

Definition is_digit (c : ascii) : bool :=
  ((48 <=? N_of_ascii c) && (N_of_ascii c <=? 57))%N.

Definition to_upper (c : ascii) : ascii :=
  if is_lower c then ascii_of_N (N_of_ascii c - 32) else c.

Definition to_lower (c : ascii) : ascii :=
  if is_upper c then ascii_of_N (N_of_ascii c + 32) else c.

(** [s.isascii()]: every character of the text is an ASCII character. *)
Fixpoint is_ascii (s : string) : bool :=
  match s with
  | EmptyString => true
  | String c rest => (N_of_ascii c <? 128)%N && is_ascii rest
  end.

(** The letters [A] to [Z] of [s] in lower case, every other character
    as it is. *)
Fixpoint ascii_lower (s : string) : string :=
  match s with
  | EmptyString => EmptyString
  | String c rest => String (to_lower c) (ascii_lower rest)
  end.

(** What [str.capitalize()] makes of an ASCII text: the first character in
    upper case, the remaining ones in lower case. *)
Definition ascii_capitalize (s : string) : string :=
  match s with
  | EmptyString => EmptyString
  | String c rest => String (to_upper c) (ascii_lower rest)
  end.

(** [needle in hay] *)
Definition mentions (hay needle : string) : Prop :=
  ∃ pre post : string, hay = pre +:+ needle +:+ post.

(** [str(n)] for an integer: its decimal numeral, with a leading minus
    sign when negative. *)
Definition str_of_int (n : Z) : string := pretty n.

(** Some character of [s] is a decimal digit. *)
Fixpoint has_digit (s : string) : bool :=
  match s with
  | EmptyString => false
  | String c rest => is_digit c || has_digit rest
  end.

(** None of the letters [A] to [Z] occurs in [s]. *)
Fixpoint no_ascii_upper (s : string) : bool :=
  match s with
  | EmptyString => true
  | String c rest => negb (is_upper c) && no_ascii_upper rest
  end.

End Text.

(** ** The interpreter's case mapping *)

(** [str.capitalize()] maps case by the Unicode character database of the
    interpreter, which is no part of the program: the handler is parametric
    in it. *)
Class Unicode : Type := {
  str_capitalize : string → string
}.

(** What every interpreter does: on ASCII text, the first character is
    upper-cased and the remaining ones are lower-cased. *)
Class UnicodeLaws (U : Unicode) : Prop := {
  str_capitalize_ascii :
    ∀ s, Text.is_ascii s = true → str_capitalize s = Text.ascii_capitalize s
}.

(** A case mapping that does this and leaves every other character alone;
    the examples below, whose descriptions are ASCII, run on it. *)
Definition ascii_text : Unicode := {|
  str_capitalize := Text.ascii_capitalize
|}.

(** ** Python values, as [json.loads] produces them *)

Inductive value : Type :=
| VNone
| VBool (b : bool)
| VInt (n : Z)
| VFloat (x : float)
| VStr (s : string)
| VList (items : list value)
| VDict (entries : gmap string value).

(** ** Exceptions *)

Inductive exn : Type :=
| HTTPException (status_code : Z) (detail : string)
| KeyError
| IndexError
| TypeError
| AttributeError
| ValidationError
| JSONDecodeError
| RequestError.

Definition is_HTTPException (e : exn) : bool :=
  match e with
  | HTTPException _ _ => true
  | _ => false
  end.

Inductive outcome (A : Type) : Type :=
| Return (a : A)
| Raise (e : exn).
Arguments Return {A} a.
Arguments Raise {A} e.

(** Sequencing of operations that may raise. *)
#[export] Instance outcome_bind : MBind outcome := λ A B k r,
  match r with
  | Return a => k a
  | Raise e => Raise e
  end.

(** ** The response schema *)

Record WeatherInfo : Type := {
  city : string;
  temperature_celsius : float;
  humidity_percent : Z;
  weather_description : string;
  wind_speed_mps : float
}.

(** ** The outside world *)

(** What [httpx] hands back for a request: the status line, the raw body,
    and what [response.json()] evaluates to on that body ([None] when the
    decoder raises). *)
Record Response : Type := {
  status_code : Z;
  text : string;
  json : option value
}.

(** The process environment, as it stands once [load_dotenv()] has run, and
    the upstream server. [upstream url params] is [None] when no response
    arrives at all (the client raises). *)
Record World : Type := {
  environ : gmap string string;
  upstream : string → gmap string string → option Response
}.

(** The calls the handler makes on the outside world, in program order. *)
Inductive event : Type :=
| EGet (url : string) (params : gmap string string)
| EPrint (args : list value)
| EJson.

Definition is_get (ev : event) : bool :=
  match ev with EGet _ _ => true | _ => false end.

Definition is_json (ev : event) : bool :=
  match ev with EJson => true | _ => false end.

(** ** The handler monad: read the world, log the calls, return or raise *)

(** A run [m w] is a pair: [(m w).1] is the log of outside calls, [(m w).2]
    the report returned or the exception raised. *)

Definition M (A : Type) : Type := World → list event * outcome A.

Definition pure {A} (a : A) : M A := λ _, ([], Return a).

Definition raise {A} (e : exn) : M A := λ _, ([], Raise e).

Definition bind {A B} (m : M A) (k : A → M B) : M B :=
  λ w, match m w with
       | (log, Return a) => let '(log', r) := k a w in ((log ++ log')%list, r)
       | (log, Raise e) => (log, Raise e)
       end.

(** An operation on values that touches nothing outside. *)
Definition lift {A} (r : outcome A) : M A := λ _, ([], r).

#[export] Instance M_ret : MRet M := @pure.
#[export] Instance M_bind : MBind M := λ A B k m, bind m k.

(** [os.getenv(name)] *)
Definition os_getenv (name : string) : M (option string) :=
  λ w, ([], Return (environ w !! name)).

(** [await client.get(url, params=params)] *)
Definition client_get (url : string) (params : gmap string string) : M Response :=
  λ w, ([EGet url params],
        match upstream w url params with
        | Some response => Return response
        | None => Raise RequestError
        end).

(** [print(a, b)] *)
Definition print (args : list value) : M unit :=
  λ _, ([EPrint args], Return tt).

(** [response.json()] *)
Definition response_json (response : Response) : M value :=
  λ _, ([EJson],
        match json response with
        | Some data => Return data
        | None => Raise JSONDecodeError
        end).

(** ** Python operations on values *)

(** [v.get(key)] *)
Definition dict_get (v : value) (key : string) : outcome value :=
  match v with
  | VDict entries => Return (default VNone (entries !! key))
  | _ => Raise AttributeError
  end.

(** [v[key]] for a string key *)
Definition getitem (v : value) (key : string) : outcome value :=
  match v with
  | VDict entries =>
      match entries !! key with
      | Some x => Return x
      | None => Raise KeyError
      end
  | _ => Raise TypeError
  end.

(** [v[0]] *)
Definition getitem0 (v : value) : outcome value :=
  match v with
  | VList items =>
      match items with
      | x :: _ => Return x
      | [] => Raise IndexError
      end
  | VStr s =>
      match s with
      | String c _ => Return (VStr (String c EmptyString))
      | EmptyString => Raise IndexError
      end
  | VDict _ => Raise KeyError
  | _ => Raise TypeError
  end.

(** [v.capitalize()] *)
Definition capitalize {U : Unicode} (v : value) : outcome value :=
  match v with
  | VStr s => Return (VStr (str_capitalize s))
  | _ => Raise AttributeError
  end.

(** ** Schema validation *)

(** Constructing a [BaseModel] validates every field against its declared
    type. The validators are those of the installed pydantic; the handler is
    parametric in them. *)
Class Pydantic : Type := {
  validate_str : value → option string;
  validate_float : value → option float;
  validate_int : value → option Z
}.

(** [float(n)] for an integer; exact as long as [|n| ≤ 2^53]. *)
Fixpoint float_of_positive (p : positive) : float :=
  match p with
  | xH => 1
  | xO p => 2 * float_of_positive p
  | xI p => 2 * float_of_positive p + 1
  end%float.

Definition float_of_int (n : Z) : float :=
  match n with
  | Z0 => 0
  | Zpos p => float_of_positive p
  | Zneg p => - float_of_positive p
  end%float.

(** The float that a JSON number stands for: a [float] is itself, and an
    [int] that a double holds exactly is that double. *)
Definition number_value (v : value) : option float :=
  match v with
  | VFloat x => Some x
  | VInt n => if (Z.abs n <=? 2 ^ 53)%Z then Some (float_of_int n) else None
  | _ => None
  end.

(** What every pydantic does: a [str] field takes a string as it is and
    refuses [None], a [float] field takes a number at its value, an [int]
    field takes an integer as it is. *)
Class PydanticLaws (P : Pydantic) : Prop := {
  validate_str_VStr : ∀ s, validate_str (VStr s) = Some s;
  validate_str_VNone : validate_str VNone = None;
  validate_float_number : ∀ v x, number_value v = Some x → validate_float v = Some x;
  validate_int_VInt : ∀ n, validate_int (VInt n) = Some n
}.

(** Validators that do this and refuse everything else. *)
Definition exact_types : Pydantic := {|
  validate_str v := match v with VStr s => Some s | _ => None end;
  validate_float v := number_value v;
  validate_int v := match v with VInt n => Some n | _ => None end
|}.

Section Handler.

Context {U : Unicode} {P : Pydantic}.

(** [WeatherInfo(city=..., temperature_celsius=..., ...)] *)
Definition WeatherInfo_init
    (city temperature_celsius humidity_percent weather_description wind_speed_mps : value)
    : outcome WeatherInfo :=
  match validate_str city, validate_float temperature_celsius,
        validate_int humidity_percent, validate_str weather_description,
        validate_float wind_speed_mps with
  | Some c, Some t, Some h, Some d, Some w =>
      Return {| city := c; temperature_celsius := t; humidity_percent := h;
                weather_description := d; wind_speed_mps := w |}
  | _, _, _, _, _ => Raise ValidationError
  end.

Definition api_url : string := "https://api.openweathermap.org/data/2.5/weather".

Definition query_parameters (city_name api_key : string) : gmap string string :=
  {[ "q" := city_name; "appid" := api_key; "units" := "metric" ]}.

Definition missing_key_detail : string :=
  "OpenWeatherMap API key is missing. Please set it in your environment variables.".

Definition not_found_detail (city_name : string) : string :=
  "City '" +:+ city_name +:+ "' not found.".

Definition upstream_failure_detail : string :=
  "Something went wrong while fetching weather data.".

(** The [weather_report = WeatherInfo(...)] statement: the keyword arguments
    are evaluated from left to right, then the model is validated. *)
Definition weather_report (data : value) : outcome WeatherInfo :=
  city ← dict_get data "name";
  temperature_celsius ← (main ← getitem data "main"; getitem main "temp");
  humidity_percent ← (main ← getitem data "main"; getitem main "humidity");
  weather_description ←
    (weather ← getitem data "weather";
     first ← getitem0 weather;
     description ← getitem first "description";
     capitalize description);
  wind_speed_mps ← (wind ← getitem data "wind"; getitem wind "speed");
  WeatherInfo_init city temperature_celsius humidity_percent
                   weather_description wind_speed_mps.

Definition fetch_weather (city_name : string) : M WeatherInfo :=
  api_key ← os_getenv "OPENWEATHERMAP_API_KEY";
  match api_key with
  | None | Some "" =>                                    (* [if not api_key:] *)
      raise (HTTPException 500 missing_key_detail)
  | Some api_key =>
      response ← client_get api_url (query_parameters city_name api_key);
      print [VStr "OpenWeatherMap status code:"; VInt (status_code response)];;
      print [VStr "Response text:"; VStr (text response)];;
      if (status_code response =? 404)%Z then
        raise (HTTPException 404 (not_found_detail city_name))
      else if negb (status_code response =? 200)%Z then
        raise (HTTPException 502 upstream_failure_detail)
      else
        data ← response_json response;
        lift (weather_report data)
  end.

(** [GET /weather/{city_name}] *)
Definition get_weather (city_name : string) : M WeatherInfo :=
  fetch_weather city_name.

End Handler.

(** ** The upstream document, as the interface names its fields *)

Inductive selector : Type :=
| Key (k : string)
| Index (i : nat).

(** [select data path]: the member of a JSON document at a path such as
    [weather[0].description], when the document has one. This is how the
    interface description addresses the document; the handler itself goes
    through [dict_get], [getitem] and [getitem0]. *)
Fixpoint select (data : value) (path : list selector) : option value :=
  match path with
  | [] => Some data
  | Key k :: rest =>
      match data with
      | VDict entries => entries !! k ≫= λ x, select x rest
      | _ => None
      end
  | Index i :: rest =>
      match data with
      | VList items => items !! i ≫= λ x, select x rest
      | _ => None
      end
  end.

Definition name_path : list selector := [Key "name"].
Definition temp_path : list selector := [Key "main"; Key "temp"].
Definition humidity_path : list selector := [Key "main"; Key "humidity"].
Definition description_path : list selector :=
  [Key "weather"; Index 0; Key "description"].
Definition speed_path : list selector := [Key "wind"; Key "speed"].

Definition expected_fields : list (list selector) :=
  [name_path; temp_path; humidity_path; description_path; speed_path].

Definition missing_field (data : value) : Prop :=
  ∃ path, path ∈ expected_fields ∧ select data path = None.

(** ** What a run is observed through *)

Definition api_key_var : string := "OPENWEATHERMAP_API_KEY".

(** The three calls that precede the classification of the status. *)
Definition request_log (city_name api_key : string) (response : Response) : list event :=
  [EGet api_url (query_parameters city_name api_key);
   EPrint [VStr "OpenWeatherMap status code:"; VInt (status_code response)];
   EPrint [VStr "Response text:"; VStr (text response)]].

Definition gets (log : list event) : list event := filter (λ ev, is_get ev = true) log.
Definition decodes (log : list event) : list event := filter (λ ev, is_json ev = true) log.

(** ** Worked example *)

Definition london_json : value :=
  VDict {[ "name" := VStr "London";
           "main" := VDict {[ "temp" := VFloat 11.5%float; "humidity" := VInt 81 ]};
           "weather" := VList [VDict {[ "description" := VStr "light rain" ]}];
           "wind" := VDict {[ "speed" := VFloat 4.5%float ]} ]}.

(** The same weather, the numbers written without a fraction. *)
Definition round_json : value :=
  VDict {[ "name" := VStr "London";
           "main" := VDict {[ "temp" := VInt 12; "humidity" := VInt 81 ]};
           "weather" := VList [VDict {[ "description" := VStr "light rain" ]}];
           "wind" := VDict {[ "speed" := VInt 4 ]} ]}.

Definition london_response : Response :=
  {| status_code := 200; text := "{...}"; json := Some london_json |}.

(** A deployment whose credential is [secret] and whose upstream answers
    every request with [response]. *)
Definition world_of (response : Response) : World := {|
  environ := {[ "OPENWEATHERMAP_API_KEY" := "secret" ]};
  upstream _ _ := Some response
|}.

Definition london_world : World := world_of london_response.

(** The same upstream, seen from a process with a larger environment and
    asked only at the weather endpoint. *)
Definition london_world' : World := {|
  environ := {[ "OPENWEATHERMAP_API_KEY" := "secret"; "HOME" := "/srv/app" ]};
  upstream url _ := if decide (url = api_url) then Some london_response else None
|}.

(** Deployments without a usable credential. *)
Definition unset_world : World := {|
  environ := {[ "HOME" := "/srv/app" ]};
  upstream _ _ := Some london_response
|}.

Definition empty_key_world : World := {|
  environ := {[ "OPENWEATHERMAP_API_KEY" := "" ]};
  upstream _ _ := Some london_response
|}.

(** An upstream error: a status and a body that is not JSON. *)
Definition error_response (code : Z) : Response :=
  {| status_code := code; text := "<html>error</html>"; json := None |}.

(** A description with capitals after its first letter. *)
Definition shouting_json : value :=
  VDict {[ "name" := VStr "London";
           "main" := VDict {[ "temp" := VFloat 11.5%float; "humidity" := VInt 81 ]};
           "weather" := VList [VDict {[ "description" := VStr "light RAIN" ]}];
           "wind" := VDict {[ "speed" := VFloat 4.5%float ]} ]}.

Definition shouting_response : Response :=
  {| status_code := 200; text := "{...}"; json := Some shouting_json |}.

(** A document without its [weather] array. *)
Definition no_weather_json : value :=
  VDict {[ "name" := VStr "London";
           "main" := VDict {[ "temp" := VFloat 11.5%float; "humidity" := VInt 81 ]};
           "wind" := VDict {[ "speed" := VFloat 4.5%float ]} ]}.

Definition no_weather_response : Response :=
  {| status_code := 200; text := "{...}"; json := Some no_weather_json |}.

(** ** The welcome route and further observations *)

(** [GET /] *)
Definition welcome : value :=
  VDict {[ "message" :=
    VStr "👋 Welcome to the Weather Info API! Visit /weather/{city_name} to get live weather updates." ]}.

Definition is_print (ev : event) : bool :=
  match ev with EPrint _ => true | _ => false end.

Definition prints (log : list event) : list event := filter (λ ev, is_print ev = true) log.

(** In world [w] the request for [city_name] goes out with the credential
    [api_key] and is answered by a 200 whose body decodes to [data]. *)
Definition decoded_200 (w : World) (city_name api_key : string) (data : value) : Prop :=
  environ w !! api_key_var = Some api_key ∧ api_key ≠ "" ∧
  ∃ response,
    upstream w api_url (query_parameters city_name api_key) = Some response
    ∧ status_code response = 200
    ∧ json response = Some data.

(** An ASCII text in capitalized form: none of [a] to [z] in front, none
    of [A] to [Z] after it. *)
Definition ascii_capitalized (s : string) : bool :=
  Text.is_ascii s &&
  match s with
  | EmptyString => true
  | String c rest => negb (Text.is_lower c) && Text.no_ascii_upper rest
  end.

(** A deployment whose upstream cannot be reached. *)
Definition unreachable_world : World := {|
  environ := {[ "OPENWEATHERMAP_API_KEY" := "secret" ]};
  upstream _ _ := None
|}.

(** A 200 whose body is not JSON. *)
Definition garbled_response : Response :=
  {| status_code := 200; text := "<html>maintenance</html>"; json := None |}.

Definition ok_response (data : value) : Response :=
  {| status_code := 200; text := "{...}"; json := Some data |}.

(** The London document with more in it than the handler asks for. *)
Definition verbose_json : value :=
  VDict {[ "name" := VStr "London";
           "cod" := VInt 200;
           "main" := VDict {[ "temp" := VFloat 11.5%float; "humidity" := VInt 81;
                              "pressure" := VInt 1012 ]};
           "weather" := VList [VDict {[ "description" := VStr "light rain";
                                        "icon" := VStr "10d" ]};
                               VDict {[ "description" := VStr "mist" ]}];
           "wind" := VDict {[ "speed" := VFloat 4.5%float; "deg" := VInt 240 ]} ]}.


Definition no_main_json : value :=
  VDict {[ "name" := VStr "London";
           "weather" := VList [VDict {[ "description" := VStr "light rain" ]}];
           "wind" := VDict {[ "speed" := VFloat 4.5%float ]} ]}.

Definition empty_weather_json : value :=
  VDict {[ "name" := VStr "London";
           "main" := VDict {[ "temp" := VFloat 11.5%float; "humidity" := VInt 81 ]};
           "weather" := VList [];
           "wind" := VDict {[ "speed" := VFloat 4.5%float ]} ]}.

Definition null_description_json : value :=
  VDict {[ "name" := VStr "London";
           "main" := VDict {[ "temp" := VFloat 11.5%float; "humidity" := VInt 81 ]};
           "weather" := VList [VDict {[ "description" := VNone ]}];
           "wind" := VDict {[ "speed" := VFloat 4.5%float ]} ]}.

Definition array_json : value := VList [london_json].

(** * Properties *)

(** ** Text *)

Module TextFacts.
Import Text.

Lemma to_lower_fixed c : to_lower c = c ↔ is_upper c = false.
Proof.
  destruct c as [[] [] [] [] [] [] [] []]; vm_compute; split; congruence.
Qed.

Lemma ascii_lower_fixed s : ascii_lower s = s ↔ no_ascii_upper s = true.
Proof.
  induction s as [|c rest IH]; simpl; [done|].
  rewrite andb_true_iff, negb_true_iff, <- IH, <- to_lower_fixed.
  split; [intros [= ? ?]; done | intros [-> ->]; done].
Qed.

Lemma to_upper_not_lower c : is_lower (to_upper c) = false.
Proof. destruct c as [[] [] [] [] [] [] [] []]; reflexivity. Qed.

Lemma to_lower_not_upper c : is_upper (to_lower c) = false.
Proof. destruct c as [[] [] [] [] [] [] [] []]; reflexivity. Qed.

Lemma to_upper_fixed c : is_lower c = false → to_upper c = c.
Proof. unfold to_upper. by intros ->. Qed.

Lemma to_upper_ascii c :
  (N_of_ascii c <? 128)%N = true → (N_of_ascii (to_upper c) <? 128)%N = true.
Proof. destruct c as [[] [] [] [] [] [] [] []]; vm_compute; congruence. Qed.

Lemma to_lower_ascii c :
  (N_of_ascii c <? 128)%N = true → (N_of_ascii (to_lower c) <? 128)%N = true.
Proof. destruct c as [[] [] [] [] [] [] [] []]; vm_compute; congruence. Qed.

Lemma is_ascii_lower s : is_ascii s = true → is_ascii (ascii_lower s) = true.
Proof.
  induction s as [|c rest IH]; simpl; [done|].
  intros [Hc Hrest]%andb_true_iff. by rewrite (to_lower_ascii _ Hc), IH.
Qed.

Lemma is_ascii_capitalize s : is_ascii s = true → is_ascii (ascii_capitalize s) = true.
Proof.
  destruct s as [|c rest]; simpl; [done|].
  intros [Hc Hrest]%andb_true_iff. by rewrite (to_upper_ascii _ Hc), is_ascii_lower.
Qed.

Lemma no_ascii_upper_lower s : no_ascii_upper (ascii_lower s) = true.
Proof.
  induction s as [|c s IH]; simpl; [done|].
  by rewrite to_lower_not_upper, IH.
Qed.

Lemma ascii_capitalize_idem s : ascii_capitalize (ascii_capitalize s) = ascii_capitalize s.
Proof.
  destruct s as [|c rest]; simpl; [done|].
  rewrite (to_upper_fixed _ (to_upper_not_lower c)). f_equal.
  apply ascii_lower_fixed, no_ascii_upper_lower.
Qed.

Lemma ascii_capitalized_capitalize s :
  is_ascii s = true → ascii_capitalized (ascii_capitalize s) = true.
Proof.
  intros Hs. unfold ascii_capitalized. rewrite (is_ascii_capitalize _ Hs). simpl.
  destruct s as [|c rest]; simpl; [done|].
  by rewrite to_upper_not_lower, no_ascii_upper_lower.
Qed.

Lemma has_digit_app s1 s2 : has_digit (s1 +:+ s2) = has_digit s1 || has_digit s2.
Proof.
  induction s1 as [|c rest IH]; simpl; [done|].
  by rewrite IH, orb_assoc.
Qed.

Lemma mentions_has_digit hay needle :
  mentions hay needle → has_digit needle = true → has_digit hay = true.
Proof.
  intros (pre & post & ->) Hneedle.
  rewrite !has_digit_app, Hneedle. by rewrite orb_true_r.
Qed.

Lemma is_digit_pretty_N_char x : is_digit (pretty_N_char x) = true.
Proof. unfold pretty_N_char. by repeat case_match. Qed.

Lemma has_digit_pretty_N_go x s :
  has_digit s = true → has_digit (pretty_N_go x s) = true.
Proof.
  revert s. induction (N.lt_wf_0 x) as [x _ IH]; intros s Hs.
  destruct (decide (x = 0)%N) as [->|Hx].
  - by rewrite pretty_N_go_0.
  - rewrite pretty_N_go_step by lia. apply IH.
    + apply N.div_lt; lia.
    + simpl. by rewrite is_digit_pretty_N_char.
Qed.

Lemma has_digit_pretty_positive (p : positive) : has_digit (pretty p) = true.
Proof.
  unfold pretty, pretty_positive, pretty, pretty_N.
  rewrite decide_False by done.
  rewrite pretty_N_go_step by lia. apply has_digit_pretty_N_go.
  simpl. by rewrite is_digit_pretty_N_char.
Qed.

Lemma has_digit_str_of_int n : has_digit (str_of_int n) = true.
Proof.
  unfold str_of_int, pretty, pretty_Z. destruct n as [|p|p].
  - reflexivity.
  - apply has_digit_pretty_positive.
  - rewrite has_digit_app, has_digit_pretty_positive. by rewrite orb_true_r.
Qed.

End TextFacts.

Section Runs.

Context {U : Unicode} {P : Pydantic}.

(** ** One run of the handler, branch by branch *)

Lemma run_no_key city_name w :
  environ w !! api_key_var = None →
  fetch_weather city_name w = ([], Raise (HTTPException 500 missing_key_detail)).
Proof.
  intros Henv. unfold fetch_weather, mbind, M_bind, bind, os_getenv.
  fold api_key_var. rewrite Henv. reflexivity.
Qed.

Lemma run_empty_key city_name w :
  environ w !! api_key_var = Some "" →
  fetch_weather city_name w = ([], Raise (HTTPException 500 missing_key_detail)).
Proof.
  intros Henv. unfold fetch_weather, mbind, M_bind, bind, os_getenv.
  fold api_key_var. rewrite Henv. reflexivity.
Qed.

Lemma run_no_response city_name w api_key :
  environ w !! api_key_var = Some api_key → api_key ≠ "" →
  upstream w api_url (query_parameters city_name api_key) = None →
  fetch_weather city_name w
  = ([EGet api_url (query_parameters city_name api_key)], Raise RequestError).
Proof.
  intros Henv Hkey Hup. unfold fetch_weather, mbind, M_bind, bind, os_getenv.
  fold api_key_var. rewrite Henv.
  destruct api_key as [|c rest]; [done|].
  cbn. unfold client_get. rewrite Hup. reflexivity.
Qed.

Lemma run_response city_name w api_key response :
  environ w !! api_key_var = Some api_key → api_key ≠ "" →
  upstream w api_url (query_parameters city_name api_key) = Some response →
  fetch_weather city_name w
  = if (status_code response =? 404)%Z then
      (request_log city_name api_key response,
       Raise (HTTPException 404 (not_found_detail city_name)))
    else if negb (status_code response =? 200)%Z then
      (request_log city_name api_key response,
       Raise (HTTPException 502 upstream_failure_detail))
    else
      (request_log city_name api_key response ++ [EJson],
       match json response with
       | Some data => weather_report data
       | None => Raise JSONDecodeError
       end)%list.
Proof.
  intros Henv Hkey Hup. unfold fetch_weather, mbind, M_bind, bind, os_getenv.
  fold api_key_var. rewrite Henv.
  destruct api_key as [|c rest]; [done|].
  cbn. unfold client_get. rewrite Hup. cbn.
  destruct (status_code response =? 404)%Z; [reflexivity|].
  destruct (status_code response =? 200)%Z; cbn; [|reflexivity].
  unfold response_json, lift.
  destruct (json response) as [data|]; [|reflexivity].
  destruct (weather_report data); reflexivity.
Qed.

End Runs.

(** ** Selecting fields of the upstream document *)

Lemma select_Key data k rest x :
  select data (Key k :: rest) = Some x →
  ∃ entries y, data = VDict entries ∧ entries !! k = Some y ∧ select y rest = Some x.
Proof.
  destruct data as [| | | | | |entries]; simpl; try discriminate.
  destruct (entries !! k) as [y|] eqn:Hk; simpl; [|discriminate].
  intros Hrest. by exists entries, y.
Qed.

Lemma select_Index data i rest x :
  select data (Index i :: rest) = Some x →
  ∃ items y, data = VList items ∧ items !! i = Some y ∧ select y rest = Some x.
Proof.
  destruct data as [| | | | |items|]; simpl; try discriminate.
  destruct (items !! i) as [y|] eqn:Hi; simpl; [|discriminate].
  intros Hrest. by exists items, y.
Qed.

Lemma select_nil data x : select data [] = Some x → x = data.
Proof. simpl. congruence. Qed.

(** Decompose a hypothesis [select data path = Some x] along its path. *)
Ltac select_inv :=
  repeat match goal with
  | H : select _ (Key _ :: _) = Some _ |- _ =>
      apply select_Key in H as (? & ? & ? & ? & H)
  | H : select _ (Index _ :: _) = Some _ |- _ =>
      apply select_Index in H as (? & ? & ? & ? & H)
  | H : select _ [] = Some _ |- _ => apply select_nil in H
  end; simplify_eq.

Section Report.

Context {U : Unicode} {P : Pydantic}.

(** With the five members in place, the report is the validated model of
    exactly those members, the description capitalized. *)
Lemma weather_report_selected data name temp humidity description speed :
  select data name_path = Some name →
  select data temp_path = Some temp →
  select data humidity_path = Some humidity →
  select data description_path = Some (VStr description) →
  select data speed_path = Some speed →
  weather_report data
  = WeatherInfo_init name temp humidity (VStr (str_capitalize description)) speed.
Proof.
  unfold name_path, temp_path, humidity_path, description_path, speed_path.
  intros Hn Ht Hh Hd Hs. select_inv.
  match goal with
  | H : ?items !! 0%nat = Some _ |- _ => destruct items; simplify_eq/=
  end.
  unfold weather_report, dict_get, getitem, getitem0, capitalize; simpl.
  repeat match goal with H : _ !! _ = Some _ |- _ => rewrite H; simpl end.
  reflexivity.
Qed.

Lemma WeatherInfo_init_Return name temp humidity description speed r :
  WeatherInfo_init name temp humidity description speed = Return r →
  validate_str name = Some (city r) ∧
  validate_float temp = Some (temperature_celsius r) ∧
  validate_int humidity = Some (humidity_percent r) ∧
  validate_str description = Some (weather_description r) ∧
  validate_float speed = Some (wind_speed_mps r).
Proof.
  unfold WeatherInfo_init. intros Hinit.
  repeat case_match; simplify_eq/=. done.
Qed.

Lemma WeatherInfo_init_Raise name temp humidity description speed e :
  WeatherInfo_init name temp humidity description speed = Raise e →
  e = ValidationError.
Proof.
  unfold WeatherInfo_init. intros Hinit.
  repeat case_match; simplify_eq/=; done.
Qed.

(** Whatever goes wrong while the report is built, it is not one of the
    handler's own [HTTPException]s. *)
Lemma weather_report_Raise data e :
  weather_report data = Raise e → is_HTTPException e = false.
Proof.
  unfold weather_report, dict_get, getitem, getitem0, capitalize.
  intros Hrep.
  repeat (case_match; simplify_eq/=); try done.
  by apply WeatherInfo_init_Raise in Hrep as ->.
Qed.

(** A report is only ever built from a document that has all five members,
    the description being a string. *)
Lemma weather_report_Return `{!PydanticLaws P} data r :
  weather_report data = Return r →
  ∃ name temp humidity description speed,
    select data name_path = Some name ∧
    select data temp_path = Some temp ∧
    select data humidity_path = Some humidity ∧
    select data description_path = Some (VStr description) ∧
    select data speed_path = Some speed ∧
    WeatherInfo_init name temp humidity (VStr (str_capitalize description)) speed
    = Return r.
Proof.
  unfold weather_report, dict_get, getitem, getitem0, capitalize.
  intros Hrep.
  repeat (case_match; simplify_eq/=).
  destruct (entries !! "name") as [name|] eqn:Hname; simpl in *.
  - by eexists name, _, _, _, _.
  - apply WeatherInfo_init_Return in Hrep as (Hcity & _).
    rewrite validate_str_VNone in Hcity. discriminate.
Qed.

End Report.

Example london_report :
  get_weather (U := ascii_text) (P := exact_types) "London" london_world
  = ([EGet api_url (query_parameters "London" "secret");
      EPrint [VStr "OpenWeatherMap status code:"; VInt 200];
      EPrint [VStr "Response text:"; VStr "{...}"];
      EJson],
     Return {| city := "London"; temperature_celsius := 11.5%float;
               humidity_percent := 81; weather_description := "Light rain";
               wind_speed_mps := 4.5%float |}).
Proof. vm_compute. reflexivity. Qed.


Example sao_paulo_not_found :
  get_weather (U := ascii_text) (P := exact_types) "São Paulo" (world_of (error_response 404))
  = (request_log "São Paulo" "secret" (error_response 404),
     Raise (HTTPException 404 "City 'São Paulo' not found.")).
Proof. vm_compute. reflexivity. Qed.

Example round_numbers_report :
  (get_weather (U := ascii_text) (P := exact_types) "London"
     (world_of {| status_code := 200; text := "{...}"; json := Some round_json |})).2
  = Return {| city := "London"; temperature_celsius := 12%float;
              humidity_percent := 81; weather_description := "Light rain";
              wind_speed_mps := 4%float |}.
Proof. vm_compute. reflexivity. Qed.

Example no_weather_raises :
  (get_weather (U := ascii_text) (P := exact_types) "London" (world_of no_weather_response)).2
  = Raise KeyError.
Proof. vm_compute. reflexivity. Qed.

Example shouting_report :
  weather_description <$>
    match (get_weather (U := ascii_text) (P := exact_types) "London" (world_of shouting_response)).2 with
    | Return r => Some r
    | Raise _ => None
    end
  = Some "Light rain".
Proof. vm_compute. reflexivity. Qed.

#[export] Instance exact_types_laws : PydanticLaws exact_types.
Proof. by split. Qed.

#[export] Instance ascii_text_laws : UnicodeLaws ascii_text.
Proof. by split. Qed.

(** ** The credential *)

Section Credential.

Context {U : Unicode} {P : Pydantic}.

(** C2. When the credential variable is absent from the environment,
    [get_weather] raises the HTTP 500 "API key is missing" error, and its log
    of outside calls is empty: no outbound GET (nor anything else) was
    issued. *)
Theorem missing_credential_fails city_name w :
  environ w !! api_key_var = None →
  get_weather city_name w = ([], Raise (HTTPException 500 missing_key_detail))
  ∧ gets (get_weather city_name w).1 = []
  ∧ Text.mentions missing_key_detail "API key is missing".
Proof.
  intros Henv. unfold get_weather. rewrite (run_no_key _ _ Henv).
  split_and!; [done..|].
  by exists "OpenWeatherMap ", ". Please set it in your environment variables.".
Qed.

(** C9. A credential variable that is set to the empty string is treated
    exactly as an absent one: the same HTTP 500 error, and no outbound
    call. *)
Theorem empty_credential_fails city_name w w' :
  environ w !! api_key_var = Some "" →
  environ w' !! api_key_var = None →
  get_weather city_name w = ([], Raise (HTTPException 500 missing_key_detail))
  ∧ gets (get_weather city_name w).1 = []
  ∧ get_weather city_name w = get_weather city_name w'.
Proof.
  intros Henv Henv'. unfold get_weather.
  by rewrite (run_empty_key _ _ Henv), (run_no_key _ _ Henv').
Qed.

End Credential.

Lemma missing_credential_fails_witness :
  get_weather (U := ascii_text) (P := exact_types) "London" unset_world
  = ([], Raise (HTTPException 500 missing_key_detail))
  ∧ gets (get_weather (U := ascii_text) (P := exact_types) "London" unset_world).1 = []
  ∧ Text.mentions missing_key_detail "API key is missing".
Proof.
  apply (missing_credential_fails (U := ascii_text) (P := exact_types) "London" unset_world).
  vm_compute. reflexivity.
Defined.

Lemma empty_credential_fails_witness :
  get_weather (U := ascii_text) (P := exact_types) "London" empty_key_world
  = ([], Raise (HTTPException 500 missing_key_detail))
  ∧ gets (get_weather (U := ascii_text) (P := exact_types) "London" empty_key_world).1 = []
  ∧ get_weather (U := ascii_text) (P := exact_types) "London" empty_key_world
    = get_weather (U := ascii_text) (P := exact_types) "London" unset_world.
Proof.
  apply (empty_credential_fails (U := ascii_text) (P := exact_types) "London" empty_key_world unset_world).
  - vm_compute. reflexivity.
  - vm_compute. reflexivity.
Defined.

(** ** Upstream errors *)

Section UpstreamErrors.

Context {U : Unicode} {P : Pydantic}.

(** C3. When the upstream answers 404, [get_weather] raises an HTTP 404
    error whose detail is [City '<city_name>' not found.], which contains
    the requested city name character for character. *)
Theorem not_found_names_city city_name w api_key response :
  environ w !! api_key_var = Some api_key → api_key ≠ "" →
  upstream w api_url (query_parameters city_name api_key) = Some response →
  status_code response = 404 →
  (get_weather city_name w).2 = Raise (HTTPException 404 (not_found_detail city_name))
  ∧ Text.mentions (not_found_detail city_name) city_name.
Proof.
  intros Henv Hkey Hup Hstatus. unfold get_weather.
  rewrite (run_response _ _ _ _ Henv Hkey Hup), Hstatus. simpl.
  split; [done|]. by exists "City '", "' not found.".
Qed.

(** C4. When the upstream answers with a status other than 200 and 404,
    [get_weather] raises HTTP 502 with one fixed detail. The detail does not
    contain the decimal numeral of the upstream status, and the error is the
    same for any two such responses, whatever their status and body. *)
Theorem upstream_failure_is_generic city_name w api_key response :
  environ w !! api_key_var = Some api_key → api_key ≠ "" →
  upstream w api_url (query_parameters city_name api_key) = Some response →
  status_code response ≠ 200 → status_code response ≠ 404 →
  (get_weather city_name w).2 = Raise (HTTPException 502 upstream_failure_detail)
  ∧ ¬ Text.mentions upstream_failure_detail (Text.str_of_int (status_code response))
  ∧ ∀ city_name' w' api_key' response',
      environ w' !! api_key_var = Some api_key' → api_key' ≠ "" →
      upstream w' api_url (query_parameters city_name' api_key') = Some response' →
      status_code response' ≠ 200 → status_code response' ≠ 404 →
      (get_weather city_name' w').2 = (get_weather city_name w).2.
Proof.
  assert (Hrun : ∀ c w0 k r,
    environ w0 !! api_key_var = Some k → k ≠ "" →
    upstream w0 api_url (query_parameters c k) = Some r →
    status_code r ≠ 200 → status_code r ≠ 404 →
    (get_weather c w0).2 = Raise (HTTPException 502 upstream_failure_detail)).
  { intros c w0 k r Henv Hkey Hup H200 H404. unfold get_weather.
    rewrite (run_response _ _ _ _ Henv Hkey Hup).
    apply Z.eqb_neq in H200, H404. by rewrite H200, H404. }
  intros Henv Hkey Hup H200 H404. split_and!.
  - eauto.
  - intros Hin. apply TextFacts.mentions_has_digit in Hin.
    + discriminate Hin.
    + apply TextFacts.has_digit_str_of_int.
  - intros c' w' k' r' Henv' Hkey' Hup' H200' H404'.
    rewrite (Hrun _ _ _ _ Henv' Hkey' Hup' H200' H404').
    symmetry. eauto.
Qed.

End UpstreamErrors.

Lemma not_found_names_city_witness :
  (get_weather (U := ascii_text) (P := exact_types) "São Paulo" (world_of (error_response 404))).2
  = Raise (HTTPException 404 (not_found_detail "São Paulo"))
  ∧ Text.mentions (not_found_detail "São Paulo") "São Paulo".
Proof.
  apply (not_found_names_city (U := ascii_text) (P := exact_types) "São Paulo"
           (world_of (error_response 404)) "secret" (error_response 404)).
  - vm_compute. reflexivity.
  - discriminate.
  - reflexivity.
  - reflexivity.
Defined.

Lemma upstream_failure_is_generic_witness :
  (get_weather (U := ascii_text) (P := exact_types) "London" (world_of (error_response 500))).2
  = Raise (HTTPException 502 upstream_failure_detail)
  ∧ ¬ Text.mentions upstream_failure_detail (Text.str_of_int 500)
  ∧ ∀ city_name' w' api_key' response',
      environ w' !! api_key_var = Some api_key' → api_key' ≠ "" →
      upstream w' api_url (query_parameters city_name' api_key') = Some response' →
      status_code response' ≠ 200 → status_code response' ≠ 404 →
      (get_weather (U := ascii_text) (P := exact_types) city_name' w').2
      = (get_weather (U := ascii_text) (P := exact_types) "London" (world_of (error_response 500))).2.
Proof.
  apply (upstream_failure_is_generic (U := ascii_text) (P := exact_types) "London"
           (world_of (error_response 500)) "secret" (error_response 500)).
  - vm_compute. reflexivity.
  - discriminate.
  - reflexivity.
  - discriminate.
  - discriminate.
Defined.

(** ** The outbound request *)

Lemma query_parameters_dom city_name api_key :
  dom (query_parameters city_name api_key) = ({[ "q"; "appid"; "units" ]} : gset string).
Proof. unfold query_parameters. rewrite !dom_insert_L, dom_singleton_L. set_solver. Qed.

Section Outbound.

Context {U : Unicode} {P : Pydantic}.

(** C6. The outbound GETs of a request are: none when the credential is
    unset or empty, and otherwise exactly one, sent to the weather endpoint
    with the parameters [query_parameters city_name api_key]. That map has
    the three keys [q], [appid], [units] and no other; [q] is the requested
    city name itself, whatever characters it is made of, [appid] is the
    credential and [units] is [metric]. *)
Theorem outbound_get_parameters city_name w :
  gets (get_weather city_name w).1
  = match environ w !! api_key_var with
    | None | Some "" => []
    | Some api_key => [EGet api_url (query_parameters city_name api_key)]
    end
  ∧ ∀ api_key,
      query_parameters city_name api_key !! "q" = Some city_name
      ∧ query_parameters city_name api_key !! "appid" = Some api_key
      ∧ query_parameters city_name api_key !! "units" = Some "metric"
      ∧ dom (query_parameters city_name api_key)
        = ({[ "q"; "appid"; "units" ]} : gset string)
      ∧ size (query_parameters city_name api_key) = 3%nat.
Proof.
  split.
  - unfold get_weather.
    destruct (environ w !! api_key_var) as [api_key|] eqn:Henv;
      [|by rewrite (run_no_key _ _ Henv)].
    destruct (decide (api_key = "")) as [->|Hkey];
      [by rewrite (run_empty_key _ _ Henv)|].
    destruct (upstream w api_url (query_parameters city_name api_key))
      as [response|] eqn:Hup.
    + rewrite (run_response _ _ _ _ Henv Hkey Hup).
      destruct api_key; [done|].
      by repeat case_match.
    + rewrite (run_no_response _ _ _ Henv Hkey Hup).
      by destruct api_key.
  - intros api_key. split_and!.
    + done.
    + done.
    + done.
    + apply query_parameters_dom.
    + unfold query_parameters.
      rewrite !map_size_insert_None, map_size_singleton; [done|by simplify_map_eq..].
Qed.

(** C7. A run of [get_weather] is a function of the city name, of the
    credential and of the upstream's answer to the one request it sends: two
    worlds that agree on these yield the same outcome (the same report or
    the same error) and the same log. *)
Theorem get_weather_deterministic city_name w1 w2 :
  environ w1 !! api_key_var = environ w2 !! api_key_var →
  (∀ api_key, environ w1 !! api_key_var = Some api_key →
     upstream w1 api_url (query_parameters city_name api_key)
     = upstream w2 api_url (query_parameters city_name api_key)) →
  get_weather city_name w1 = get_weather city_name w2.
Proof.
  intros Henv Hup. unfold get_weather.
  destruct (environ w1 !! api_key_var) as [api_key|] eqn:Henv1; symmetry in Henv.
  - destruct (decide (api_key = "")) as [->|Hkey].
    { by rewrite (run_empty_key _ _ Henv1), (run_empty_key _ _ Henv). }
    specialize (Hup _ eq_refl).
    destruct (upstream w1 api_url (query_parameters city_name api_key))
      as [response|] eqn:Hup1; symmetry in Hup.
    + by rewrite (run_response _ _ _ _ Henv1 Hkey Hup1),
                 (run_response _ _ _ _ Henv Hkey Hup).
    + by rewrite (run_no_response _ _ _ Henv1 Hkey Hup1),
                 (run_no_response _ _ _ Henv Hkey Hup).
  - by rewrite (run_no_key _ _ Henv1), (run_no_key _ _ Henv).
Qed.

(** C10. When the upstream status is not 200 the body is never decoded:
    the log has no [response.json()] call, the run ends in one of the
    handler's own [HTTPException]s, and that outcome is the same for every
    response of the same status, whatever its body is and whether or not the
    body is JSON. *)
Theorem non_200_never_decodes city_name w api_key response :
  environ w !! api_key_var = Some api_key → api_key ≠ "" →
  upstream w api_url (query_parameters city_name api_key) = Some response →
  status_code response ≠ 200 →
  decodes (get_weather city_name w).1 = []
  ∧ (∃ code detail, (get_weather city_name w).2 = Raise (HTTPException code detail))
  ∧ ∀ w' response',
      environ w' !! api_key_var = Some api_key →
      upstream w' api_url (query_parameters city_name api_key) = Some response' →
      status_code response' = status_code response →
      (get_weather city_name w').2 = (get_weather city_name w).2.
Proof.
  intros Henv Hkey Hup H200. unfold get_weather.
  rewrite (run_response _ _ _ _ Henv Hkey Hup).
  apply Z.eqb_neq in H200. rewrite H200. simpl.
  split_and!.
  - by destruct (status_code response =? 404)%Z.
  - destruct (status_code response =? 404)%Z; eauto.
  - intros w' response' Henv' Hup' Hsame.
    rewrite (run_response _ _ _ _ Henv' Hkey Hup'), Hsame, H200. simpl.
    by destruct (status_code response =? 404)%Z.
Qed.

End Outbound.

Lemma get_weather_deterministic_witness :
  get_weather (U := ascii_text) (P := exact_types) "London" london_world
  = get_weather (U := ascii_text) (P := exact_types) "London" london_world'.
Proof.
  apply (get_weather_deterministic (U := ascii_text) (P := exact_types) "London" london_world london_world').
  - vm_compute. reflexivity.
  - intros api_key _. reflexivity.
Defined.

Lemma non_200_never_decodes_witness :
  decodes (get_weather (U := ascii_text) (P := exact_types) "London" (world_of (error_response 404))).1 = []
  ∧ (∃ code detail,
       (get_weather (U := ascii_text) (P := exact_types) "London" (world_of (error_response 404))).2
       = Raise (HTTPException code detail))
  ∧ ∀ w' response',
      environ w' !! api_key_var = Some "secret" →
      upstream w' api_url (query_parameters "London" "secret") = Some response' →
      status_code response' = status_code (error_response 404) →
      (get_weather (U := ascii_text) (P := exact_types) "London" w').2
      = (get_weather (U := ascii_text) (P := exact_types) "London" (world_of (error_response 404))).2.
Proof.
  apply (non_200_never_decodes (U := ascii_text) (P := exact_types) "London"
           (world_of (error_response 404)) "secret" (error_response 404)).
  - vm_compute. reflexivity.
  - discriminate.
  - reflexivity.
  - discriminate.
Defined.

(** ** Successful responses *)

Section Success.

Context {U : Unicode} {P : Pydantic} `{!PydanticLaws P}.

(** C1. For an upstream 200 whose JSON body has the five expected members
    (a string [name], a number [main.temp], an integer [main.humidity], a
    string [weather[0].description] and a number [wind.speed]),
    [get_weather] returns the report made of exactly these values, the
    description put through [str.capitalize]; on an ASCII description that
    is the first character upper-cased and the others lower-cased. *)
Theorem get_weather_maps_fields `{!UnicodeLaws U}
    city_name w api_key response data name temp humidity description speed :
  environ w !! api_key_var = Some api_key → api_key ≠ "" →
  upstream w api_url (query_parameters city_name api_key) = Some response →
  status_code response = 200 →
  json response = Some data →
  select data name_path = Some (VStr name) →
  select data temp_path ≫= number_value = Some temp →
  select data humidity_path = Some (VInt humidity) →
  select data description_path = Some (VStr description) →
  select data speed_path ≫= number_value = Some speed →
  (get_weather city_name w).2
  = Return {| city := name;
              temperature_celsius := temp;
              humidity_percent := humidity;
              weather_description := str_capitalize description;
              wind_speed_mps := speed |}
  ∧ (Text.is_ascii description = true →
     str_capitalize description = Text.ascii_capitalize description).
Proof.
  intros Henv Hkey Hup Hstatus Hjson Hn Ht Hh Hd Hs. unfold get_weather.
  rewrite (run_response _ _ _ _ Henv Hkey Hup), Hstatus, Hjson. simpl.
  apply bind_Some in Ht as (tempv & Ht & Htemp).
  apply bind_Some in Hs as (speedv & Hs & Hspeed).
  rewrite (weather_report_selected _ _ _ _ _ _ Hn Ht Hh Hd Hs).
  unfold WeatherInfo_init.
  rewrite !validate_str_VStr, validate_int_VInt.
  rewrite (validate_float_number _ _ Htemp), (validate_float_number _ _ Hspeed).
  split; [done|]. apply str_capitalize_ascii.
Qed.

(** C5, as the code has it. Whenever [get_weather] returns a report, its
    [weather_description] is the upstream [weather[0].description] put
    through [str.capitalize]. On an ASCII description that is the first
    character upper-cased and every later character lower-cased, so the
    characters after the first are unchanged exactly when none of them is
    an upper-case letter. *)
Theorem description_is_capitalized `{!UnicodeLaws U}
    city_name w api_key response data r :
  environ w !! api_key_var = Some api_key → api_key ≠ "" →
  upstream w api_url (query_parameters city_name api_key) = Some response →
  json response = Some data →
  (get_weather city_name w).2 = Return r →
  ∃ description,
    select data description_path = Some (VStr description)
    ∧ weather_description r = str_capitalize description
    ∧ ∀ c rest,
        description = String c rest → Text.is_ascii description = true →
        weather_description r = String (Text.to_upper c) (Text.ascii_lower rest)
        ∧ (Text.ascii_lower rest = rest ↔ Text.no_ascii_upper rest = true).
Proof.
  intros Henv Hkey Hup Hjson. unfold get_weather.
  rewrite (run_response _ _ _ _ Henv Hkey Hup), Hjson.
  repeat case_match; simpl; try discriminate.
  intros (name & temp & humidity & description & speed & _ & _ & _ & Hd & _ & Hinit)
    %weather_report_Return.
  apply WeatherInfo_init_Return in Hinit as (_ & _ & _ & Hdesc & _).
  rewrite validate_str_VStr in Hdesc. injection Hdesc as <-.
  exists description. split_and!; [done..|].
  intros c rest -> Hascii. rewrite (str_capitalize_ascii _ Hascii).
  split; [done|]. apply TextFacts.ascii_lower_fixed.
Qed.

(** C8. For an upstream 200 whose JSON body lacks one of the five expected
    members, [get_weather] ends in an exception that is not an
    [HTTPException]: none of the handler's 404, 500 and 502 errors, but an
    error raised by the extraction or the validation itself. *)
Theorem missing_field_is_unhandled city_name w api_key response data :
  environ w !! api_key_var = Some api_key → api_key ≠ "" →
  upstream w api_url (query_parameters city_name api_key) = Some response →
  status_code response = 200 →
  json response = Some data →
  missing_field data →
  ∃ e, (get_weather city_name w).2 = Raise e ∧ is_HTTPException e = false.
Proof.
  intros Henv Hkey Hup Hstatus Hjson (path & Hpath & Hnone). unfold get_weather.
  rewrite (run_response _ _ _ _ Henv Hkey Hup), Hstatus, Hjson. simpl.
  destruct (weather_report data) as [r|e] eqn:Hrep.
  - apply weather_report_Return in Hrep
      as (name & temp & humidity & description & speed
          & Hn & Ht & Hh & Hd & Hs & _).
    unfold expected_fields in Hpath.
    repeat (apply elem_of_cons in Hpath as [->|Hpath]; [congruence|]).
    by apply elem_of_nil in Hpath.
  - exists e. split; [done|]. by apply weather_report_Raise in Hrep.
Qed.

End Success.

Lemma get_weather_maps_fields_witness :
  (get_weather (U := ascii_text) (P := exact_types) "London" london_world).2
  = Return {| city := "London";
              temperature_celsius := 11.5%float;
              humidity_percent := 81;
              weather_description := "Light rain";
              wind_speed_mps := 4.5%float |}
  ∧ (Text.is_ascii "light rain" = true →
     str_capitalize (Unicode := ascii_text) "light rain"
     = Text.ascii_capitalize "light rain").
Proof.
  apply (get_weather_maps_fields (U := ascii_text) (P := exact_types)
           "London" london_world "secret"
           london_response london_json "London" 11.5%float 81 "light rain" 4.5%float).
  - vm_compute. reflexivity.
  - discriminate.
  - reflexivity.
  - reflexivity.
  - reflexivity.
  - vm_compute. reflexivity.
  - vm_compute. reflexivity.
  - vm_compute. reflexivity.
  - vm_compute. reflexivity.
  - vm_compute. reflexivity.
Defined.

Lemma description_is_capitalized_witness :
  ∃ description,
    select shouting_json description_path = Some (VStr description)
    ∧ "Light rain" = str_capitalize (Unicode := ascii_text) description
    ∧ ∀ c rest,
        description = String c rest → Text.is_ascii description = true →
        "Light rain" = String (Text.to_upper c) (Text.ascii_lower rest)
        ∧ (Text.ascii_lower rest = rest ↔ Text.no_ascii_upper rest = true).
Proof.
  apply (description_is_capitalized (U := ascii_text) (P := exact_types) "London"
           (world_of shouting_response) "secret" shouting_response shouting_json
           {| city := "London"; temperature_celsius := 11.5%float;
              humidity_percent := 81; weather_description := "Light rain";
              wind_speed_mps := 4.5%float |}).
  - vm_compute. reflexivity.
  - discriminate.
  - reflexivity.
  - reflexivity.
  - vm_compute. reflexivity.
Defined.

(** C5, as the claim words it, fails: on every interpreter the upstream
    description [light RAIN] comes back as [Light rain], so the characters
    after the first, [ight rain], are not the upstream's [ight RAIN]. *)
Lemma description_tail_not_kept :
  (∀ (U : Unicode) (P : Pydantic), UnicodeLaws U → PydanticLaws P →
     (get_weather (U := U) (P := P) "London" (world_of shouting_response)).2
     = Return {| city := "London"; temperature_celsius := 11.5%float;
                 humidity_percent := 81; weather_description := "Light rain";
                 wind_speed_mps := 4.5%float |})
  ∧ select shouting_json description_path = Some (VStr "light RAIN")
  ∧ "ight rain" ≠ "ight RAIN".
Proof.
  split_and!.
  - intros U P HU HP.
    assert (Hrun : decoded_200 (world_of shouting_response) "London" "secret"
                     shouting_json).
    { split; [vm_compute; reflexivity|].
      split; [discriminate|]. by exists shouting_response. }
    destruct Hrun as (Henv & Hkey & response & Hup & Hstatus & Hjson).
    unfold get_weather.
    rewrite (run_response _ _ _ _ Henv Hkey Hup), Hstatus, Hjson. simpl.
    rewrite (weather_report_selected shouting_json (VStr "London")
               (VFloat 11.5%float) (VInt 81) "light RAIN" (VFloat 4.5%float));
      try (vm_compute; reflexivity).
    unfold WeatherInfo_init.
    rewrite !validate_str_VStr, validate_int_VInt.
    rewrite (validate_float_number (VFloat 11.5%float) 11.5%float eq_refl).
    rewrite (validate_float_number (VFloat 4.5%float) 4.5%float eq_refl).
    by rewrite (str_capitalize_ascii "light RAIN" eq_refl).
  - vm_compute. reflexivity.
  - discriminate.
Qed.

Lemma missing_field_is_unhandled_witness :
  ∃ e, (get_weather (U := ascii_text) (P := exact_types) "London" (world_of no_weather_response)).2 = Raise e
       ∧ is_HTTPException e = false.
Proof.
  apply (missing_field_is_unhandled (U := ascii_text) (P := exact_types) "London"
           (world_of no_weather_response) "secret" no_weather_response no_weather_json).
  - vm_compute. reflexivity.
  - discriminate.
  - reflexivity.
  - reflexivity.
  - reflexivity.
  - exists description_path. split.
    + unfold expected_fields. do 3 apply list_elem_of_further. apply list_elem_of_here.
    + vm_compute. reflexivity.
Defined.

(** * Further properties of the handler *)

Example welcome_message :
  ∃ message, select welcome [Key "message"] = Some (VStr message)
             ∧ Text.mentions message "/weather/{city_name}".
Proof.
  eexists. split; [vm_compute; reflexivity|].
  by exists "👋 Welcome to the Weather Info API! Visit ", " to get live weather updates.".
Qed.

Section Decoded.

Context {U : Unicode} {P : Pydantic}.

(** Once the body of a 200 is decoded, the outcome is that of building the
    report. *)
Lemma run_decoded_200 city_name w api_key data :
  decoded_200 w city_name api_key data →
  (get_weather city_name w).2 = weather_report data.
Proof.
  intros (Henv & Hkey & response & Hup & Hstatus & Hjson). unfold get_weather.
  by rewrite (run_response _ _ _ _ Henv Hkey Hup), Hstatus, Hjson.
Qed.

(** ** Failures the handler does not map *)

(** When the upstream cannot be reached the client's own exception leaves
    the handler: it is not turned into the 502 of an upstream failure. The
    GET is the only outside call; nothing is printed or decoded. *)
Theorem unreachable_upstream_is_unhandled city_name w api_key :
  environ w !! api_key_var = Some api_key → api_key ≠ "" →
  upstream w api_url (query_parameters city_name api_key) = None →
  (get_weather city_name w).2 = Raise RequestError
  ∧ (get_weather city_name w).1 = [EGet api_url (query_parameters city_name api_key)]
  ∧ ∀ code detail, (get_weather city_name w).2 ≠ Raise (HTTPException code detail).
Proof.
  intros Henv Hkey Hup. unfold get_weather.
  rewrite (run_no_response _ _ _ Henv Hkey Hup). by split_and!.
Qed.

(** A 200 whose body is not JSON ends in the decoder's exception, after the
    GET, the two prints and the decoding attempt; it is not turned into one
    of the handler's HTTP errors either. *)
Theorem undecodable_200_is_unhandled city_name w api_key response :
  environ w !! api_key_var = Some api_key → api_key ≠ "" →
  upstream w api_url (query_parameters city_name api_key) = Some response →
  status_code response = 200 →
  json response = None →
  get_weather city_name w
  = ((request_log city_name api_key response ++ [EJson])%list, Raise JSONDecodeError).
Proof.
  intros Henv Hkey Hup Hstatus Hjson. unfold get_weather.
  by rewrite (run_response _ _ _ _ Henv Hkey Hup), Hstatus, Hjson.
Qed.

(** ** Which runs end how *)

(** Every [HTTPException] that leaves [get_weather] is one of three: the 500
    of a credential that is unset or empty, the 404 of an upstream 404, or
    the 502 of an upstream status that is neither 200 nor 404. In
    particular none arises once the upstream has answered 200. *)
Theorem http_errors_classified city_name w code detail :
  (get_weather city_name w).2 = Raise (HTTPException code detail) →
  (code = 500 ∧ detail = missing_key_detail
   ∧ (environ w !! api_key_var = None ∨ environ w !! api_key_var = Some ""))
  ∨ ∃ api_key response,
      environ w !! api_key_var = Some api_key
      ∧ upstream w api_url (query_parameters city_name api_key) = Some response
      ∧ ((code = 404 ∧ detail = not_found_detail city_name
          ∧ status_code response = 404)
         ∨ (code = 502 ∧ detail = upstream_failure_detail
            ∧ status_code response ≠ 200 ∧ status_code response ≠ 404)).
Proof.
  unfold get_weather.
  destruct (environ w !! api_key_var) as [api_key|] eqn:Henv.
  - destruct (decide (api_key = "")) as [->|Hkey].
    { rewrite (run_empty_key _ _ Henv). intros [= <- <-]. left. by split_and!; [..|right]. }
    destruct (upstream w api_url (query_parameters city_name api_key))
      as [response|] eqn:Hup.
    + rewrite (run_response _ _ _ _ Henv Hkey Hup).
      destruct (status_code response =? 404)%Z eqn:H404.
      { intros [= <- <-]. apply Z.eqb_eq in H404.
        right. exists api_key, response. split_and!; [done..|]. by left. }
      destruct (status_code response =? 200)%Z eqn:H200; simpl.
      * destruct (json response) as [data|]; [|discriminate].
        intros Hrep%weather_report_Raise. discriminate.
      * intros [= <- <-]. apply Z.eqb_neq in H404, H200.
        right. exists api_key, response. split_and!; [done..|]. by right.
    + rewrite (run_no_response _ _ _ Henv Hkey Hup). discriminate.
  - rewrite (run_no_key _ _ Henv). intros [= <- <-]. left. by split_and!; [..|left].
Qed.

(** A report comes only out of a complete 200: if [get_weather] returns
    [r], the credential was set and not empty, the upstream answered 200
    with a body that decodes, the document has all five members, and the
    fields of [r] are what the schema made of them, the description being
    the upstream string put through [str.capitalize]. *)
Theorem report_needs_complete_200 `{!PydanticLaws P} city_name w r :
  (get_weather city_name w).2 = Return r →
  ∃ api_key data name temp humidity description speed,
    decoded_200 w city_name api_key data
    ∧ select data name_path = Some name
    ∧ select data temp_path = Some temp
    ∧ select data humidity_path = Some humidity
    ∧ select data description_path = Some (VStr description)
    ∧ select data speed_path = Some speed
    ∧ validate_str name = Some (city r)
    ∧ validate_float temp = Some (temperature_celsius r)
    ∧ validate_int humidity = Some (humidity_percent r)
    ∧ weather_description r = str_capitalize description
    ∧ validate_float speed = Some (wind_speed_mps r).
Proof.
  unfold get_weather.
  destruct (environ w !! api_key_var) as [api_key|] eqn:Henv;
    [|by rewrite (run_no_key _ _ Henv)].
  destruct (decide (api_key = "")) as [->|Hkey];
    [by rewrite (run_empty_key _ _ Henv)|].
  destruct (upstream w api_url (query_parameters city_name api_key))
    as [response|] eqn:Hup;
    [|by rewrite (run_no_response _ _ _ Henv Hkey Hup)].
  rewrite (run_response _ _ _ _ Henv Hkey Hup).
  destruct (status_code response =? 404)%Z; [discriminate|].
  destruct (status_code response =? 200)%Z eqn:H200; [|discriminate]. simpl.
  apply Z.eqb_eq in H200.
  destruct (json response) as [data|] eqn:Hjson; [|discriminate].
  intros (name & temp & humidity & description & speed
          & Hn & Ht & Hh & Hd & Hs & Hinit)%weather_report_Return.
  apply WeatherInfo_init_Return in Hinit as (Hcity & Htemp & Hhum & Hdesc & Hspeed).
  rewrite validate_str_VStr in Hdesc. injection Hdesc as Hdesc.
  exists api_key, data, name, temp, humidity, description, speed.
  split_and!; try done. split_and!; [done..|]. by exists response.
Qed.

(** The debug prints: nothing is printed before a response has arrived;
    every response, whatever its status, has its status and its whole body
    printed, in this order. *)
Theorem responses_are_printed city_name w :
  prints (get_weather city_name w).1
  = match environ w !! api_key_var with
    | None | Some "" => []
    | Some api_key =>
        match upstream w api_url (query_parameters city_name api_key) with
        | Some response =>
            [EPrint [VStr "OpenWeatherMap status code:"; VInt (status_code response)];
             EPrint [VStr "Response text:"; VStr (text response)]]
        | None => []
        end
    end.
Proof.
  unfold get_weather.
  destruct (environ w !! api_key_var) as [api_key|] eqn:Henv;
    [|by rewrite (run_no_key _ _ Henv)].
  destruct (decide (api_key = "")) as [->|Hkey];
    [by rewrite (run_empty_key _ _ Henv)|].
  destruct (upstream w api_url (query_parameters city_name api_key))
    as [response|] eqn:Hup.
  - rewrite (run_response _ _ _ _ Henv Hkey Hup).
    destruct api_key; [done|]. by repeat case_match.
  - rewrite (run_no_response _ _ _ Henv Hkey Hup). by destruct api_key.
Qed.

End Decoded.

(** ** The document behind a report *)

Lemma append_cancel_r (s1 s2 tl : string) : s1 +:+ tl = s2 +:+ tl → s1 = s2.
Proof.
  assert (Hlen : ∀ a b : string,
            String.length (a +:+ b) = (String.length a + String.length b)%nat).
  { intros a b. induction a as [|c a IH]; simpl; [done|]. by rewrite IH. }
  intros Heq.
  assert (Hsame : String.length s1 = String.length s2).
  { apply (f_equal String.length) in Heq. rewrite !Hlen in Heq. lia. }
  revert s2 Heq Hsame. induction s1 as [|c s1 IH]; intros [|c' s2] Heq Hsame;
    simpl in *; try done.
  injection Heq as -> Heq. f_equal. apply IH; [done|lia].
Qed.

Lemma not_found_detail_inj city_name1 city_name2 :
  not_found_detail city_name1 = not_found_detail city_name2 → city_name1 = city_name2.
Proof.
  unfold not_found_detail. intros Heq.
  apply (String.app_inj "City '") in Heq. by apply append_cancel_r in Heq.
Qed.

(** Membership in a list given by its elements. *)
Ltac expected :=
  repeat first [apply list_elem_of_here | apply list_elem_of_further].

Section Documents.

Context {U : Unicode} {P : Pydantic}.

Lemma run_404 city_name w api_key response :
  environ w !! api_key_var = Some api_key → api_key ≠ "" →
  upstream w api_url (query_parameters city_name api_key) = Some response →
  status_code response = 404 →
  (get_weather city_name w).2 = Raise (HTTPException 404 (not_found_detail city_name)).
Proof.
  intros Henv Hkey Hup Hstatus. unfold get_weather.
  by rewrite (run_response _ _ _ _ Henv Hkey Hup), Hstatus.
Qed.

(** With the five members in place the outcome is decided by them alone:
    the description goes through [capitalize], then the model is built. *)
Lemma weather_report_members data name temp humidity description speed :
  select data name_path = Some name →
  select data temp_path = Some temp →
  select data humidity_path = Some humidity →
  select data description_path = Some description →
  select data speed_path = Some speed →
  weather_report data
  = (d ← capitalize description; WeatherInfo_init name temp humidity d speed).
Proof.
  unfold name_path, temp_path, humidity_path, description_path, speed_path.
  intros Hn Ht Hh Hd Hs. select_inv.
  match goal with
  | H : ?items !! 0%nat = Some _ |- _ => destruct items; simplify_eq/=
  end.
  unfold weather_report, dict_get, getitem, getitem0; simpl.
  repeat match goal with H : _ !! _ = Some _ |- _ => rewrite H; simpl end.
  reflexivity.
Qed.

Lemma run_Return_decoded city_name w r :
  (get_weather city_name w).2 = Return r →
  ∃ api_key data, decoded_200 w city_name api_key data ∧ weather_report data = Return r.
Proof.
  unfold get_weather.
  destruct (environ w !! api_key_var) as [api_key|] eqn:Henv;
    [|by rewrite (run_no_key _ _ Henv)].
  destruct (decide (api_key = "")) as [->|Hkey];
    [by rewrite (run_empty_key _ _ Henv)|].
  destruct (upstream w api_url (query_parameters city_name api_key))
    as [response|] eqn:Hup;
    [|by rewrite (run_no_response _ _ _ Henv Hkey Hup)].
  rewrite (run_response _ _ _ _ Henv Hkey Hup).
  destruct (status_code response =? 404)%Z; [discriminate|].
  destruct (status_code response =? 200)%Z eqn:H200; [|discriminate]. simpl.
  apply Z.eqb_eq in H200.
  destruct (json response) as [data|] eqn:Hjson; [|discriminate].
  intros Hrep. exists api_key, data. split; [|done].
  split_and!; [done..|]. by exists response.
Qed.

(** The requested city name has no part in a report: when two requests are
    answered by the same 200, their outcomes are the same, whatever names
    were asked for. The [city] of a report is the upstream's [name]: what
    the schema reads the document's [name] member as, and that very string
    when the member is a string. *)
Theorem report_ignores_requested_city `{!PydanticLaws P}
    city_name1 city_name2 w api_key response :
  environ w !! api_key_var = Some api_key → api_key ≠ "" →
  upstream w api_url (query_parameters city_name1 api_key) = Some response →
  upstream w api_url (query_parameters city_name2 api_key) = Some response →
  status_code response = 200 →
  (get_weather city_name1 w).2 = (get_weather city_name2 w).2
  ∧ ∀ r, (get_weather city_name1 w).2 = Return r →
      ∃ data name,
        json response = Some data
        ∧ select data name_path = Some name
        ∧ validate_str name = Some (city r)
        ∧ ∀ s, name = VStr s → city r = s.
Proof.
  intros Henv Hkey Hup1 Hup2 Hstatus. unfold get_weather.
  rewrite (run_response _ _ _ _ Henv Hkey Hup1),
          (run_response _ _ _ _ Henv Hkey Hup2), Hstatus. simpl.
  split; [done|]. intros r.
  destruct (json response) as [data|]; [|discriminate].
  intros (name & temp & humidity & description & speed
          & Hn & _ & _ & _ & _ & Hinit)%weather_report_Return.
  apply WeatherInfo_init_Return in Hinit as (Hcity & _).
  exists data, name. split_and!; [done..|].
  intros s ->. rewrite validate_str_VStr in Hcity. congruence.
Qed.

(** Only the five members count: two decoded documents that both have them
    and agree on them give the same outcome, whatever else they hold (other
    keys, further elements of the [weather] array). *)
Theorem report_ignores_other_members
    city_name1 city_name2 w1 w2 api_key1 api_key2 data1 data2 :
  decoded_200 w1 city_name1 api_key1 data1 →
  decoded_200 w2 city_name2 api_key2 data2 →
  (∀ path, path ∈ expected_fields →
     is_Some (select data1 path) ∧ select data1 path = select data2 path) →
  (get_weather city_name1 w1).2 = (get_weather city_name2 w2).2.
Proof.
  intros Hrun1 Hrun2 Hsame.
  rewrite (run_decoded_200 _ _ _ _ Hrun1), (run_decoded_200 _ _ _ _ Hrun2).
  assert (Hmem : ∀ path, path ∈ expected_fields →
            ∃ x, select data1 path = Some x ∧ select data2 path = Some x).
  { intros path [[x Hx] Heq]%Hsame. exists x. by rewrite <- Heq. }
  unfold expected_fields in Hmem.
  destruct (Hmem name_path) as (name & ? & ?); [expected|].
  destruct (Hmem temp_path) as (temp & ? & ?); [expected|].
  destruct (Hmem humidity_path) as (humidity & ? & ?); [expected|].
  destruct (Hmem description_path) as (description & ? & ?); [expected|].
  destruct (Hmem speed_path) as (speed & ? & ?); [expected|].
  by rewrite (weather_report_members data1 name temp humidity description speed),
             (weather_report_members data2 name temp humidity description speed).
Qed.

(** Two 404 runs raise the same error only when the same city name was
    asked for: the detail tells the requested names apart. *)
Theorem not_found_identifies_city
    city_name1 city_name2 w1 w2 api_key1 api_key2 response1 response2 :
  environ w1 !! api_key_var = Some api_key1 → api_key1 ≠ "" →
  upstream w1 api_url (query_parameters city_name1 api_key1) = Some response1 →
  status_code response1 = 404 →
  environ w2 !! api_key_var = Some api_key2 → api_key2 ≠ "" →
  upstream w2 api_url (query_parameters city_name2 api_key2) = Some response2 →
  status_code response2 = 404 →
  (get_weather city_name1 w1).2 = (get_weather city_name2 w2).2 →
  city_name1 = city_name2.
Proof.
  intros Henv1 Hkey1 Hup1 H1 Henv2 Hkey2 Hup2 H2.
  rewrite (run_404 _ _ _ _ Henv1 Hkey1 Hup1 H1), (run_404 _ _ _ _ Henv2 Hkey2 Hup2 H2).
  intros Heq. apply not_found_detail_inj. congruence.
Qed.

End Documents.

(** ** Which exception a malformed document raises *)

Section Malformed.

Context {U : Unicode} {P : Pydantic}.

(** A body that decodes to something other than an object (an array, a
    string, a number, [null]) fails at the very first access,
    [data.get("name")], with [AttributeError]. *)
Theorem non_object_document_raises city_name w api_key data :
  decoded_200 w city_name api_key data →
  (∀ entries, data ≠ VDict entries) →
  (get_weather city_name w).2 = Raise AttributeError.
Proof.
  intros Hrun Hshape. rewrite (run_decoded_200 _ _ _ _ Hrun).
  destruct data; try reflexivity. by destruct (Hshape entries).
Qed.

(** An object without the key [main] raises [KeyError], whatever else it
    holds or lacks: [main] is the first member that is subscripted, and an
    absent [name] before it raises nothing. *)
Theorem absent_main_raises city_name w api_key entries :
  decoded_200 w city_name api_key (VDict entries) →
  entries !! "main" = None →
  (get_weather city_name w).2 = Raise KeyError.
Proof.
  intros Hrun Hmain. rewrite (run_decoded_200 _ _ _ _ Hrun).
  unfold weather_report, dict_get, getitem. simpl. by rewrite Hmain.
Qed.

(** An empty [weather] array raises [IndexError], once [main.temp] and
    [main.humidity] have been read. *)
Theorem empty_weather_raises city_name w api_key data temp humidity :
  decoded_200 w city_name api_key data →
  select data temp_path = Some temp →
  select data humidity_path = Some humidity →
  select data [Key "weather"] = Some (VList []) →
  (get_weather city_name w).2 = Raise IndexError.
Proof.
  unfold temp_path, humidity_path.
  intros Hrun Ht Hh Hw. rewrite (run_decoded_200 _ _ _ _ Hrun). select_inv.
  unfold weather_report, dict_get, getitem, getitem0. simpl.
  repeat match goal with H : _ !! _ = Some _ |- _ => rewrite H; simpl end.
  reflexivity.
Qed.

(** A description that is not a string (a number, [null], ...) raises
    [AttributeError] at [.capitalize()]: the value never reaches the schema,
    so no validator gets to accept or convert it. *)
Theorem non_string_description_raises city_name w api_key data temp humidity description :
  decoded_200 w city_name api_key data →
  select data temp_path = Some temp →
  select data humidity_path = Some humidity →
  select data description_path = Some description →
  (∀ s, description ≠ VStr s) →
  (get_weather city_name w).2 = Raise AttributeError.
Proof.
  unfold temp_path, humidity_path, description_path.
  intros Hrun Ht Hh Hd Hshape. rewrite (run_decoded_200 _ _ _ _ Hrun). select_inv.
  match goal with
  | H : ?items !! 0%nat = Some _ |- _ => destruct items; simplify_eq/=
  end.
  unfold weather_report, dict_get, getitem, getitem0. simpl.
  repeat match goal with H : _ !! _ = Some _ |- _ => rewrite H; simpl end.
  match goal with
  | Hsh : ∀ s, ?d ≠ VStr s |- _ =>
      destruct d as [| | | |s0| |]; try reflexivity; by destruct (Hsh s0)
  end.
Qed.


(** When the upstream description is ASCII text, the description that
    [get_weather] returns is ASCII text in capitalized form: no lower-case
    letter in front and no upper-case letter after it, so capitalizing it
    once more changes nothing. *)
Theorem returned_description_is_capitalized `{!UnicodeLaws U} `{!PydanticLaws P}
    city_name w api_key data description r :
  decoded_200 w city_name api_key data →
  select data description_path = Some (VStr description) →
  Text.is_ascii description = true →
  (get_weather city_name w).2 = Return r →
  ascii_capitalized (weather_description r) = true
  ∧ str_capitalize (weather_description r) = weather_description r.
Proof.
  intros Hrun Hd Hascii. rewrite (run_decoded_200 _ _ _ _ Hrun).
  intros (name & temp & humidity & description' & speed
          & _ & _ & _ & Hd' & _ & Hinit)%weather_report_Return.
  rewrite Hd in Hd'. injection Hd' as <-.
  apply WeatherInfo_init_Return in Hinit as (_ & _ & _ & Hdesc & _).
  rewrite validate_str_VStr in Hdesc. injection Hdesc as <-.
  rewrite (str_capitalize_ascii _ Hascii).
  split; [by apply TextFacts.ascii_capitalized_capitalize|].
  rewrite str_capitalize_ascii by by apply TextFacts.is_ascii_capitalize.
  apply TextFacts.ascii_capitalize_idem.
Qed.

End Malformed.

(** ** The properties above, on concrete runs *)

(** Discharge [decoded_200] for a world built by [world_of]. *)
Ltac decoded :=
  split; [vm_compute; reflexivity
         | split; [discriminate | eexists; split_and!; reflexivity]].

Lemma unreachable_upstream_is_unhandled_witness :
  (get_weather (U := ascii_text) (P := exact_types) "London" unreachable_world).2 = Raise RequestError
  ∧ (get_weather (U := ascii_text) (P := exact_types) "London" unreachable_world).1
    = [EGet api_url (query_parameters "London" "secret")]
  ∧ ∀ code detail,
      (get_weather (U := ascii_text) (P := exact_types) "London" unreachable_world).2
      ≠ Raise (HTTPException code detail).
Proof.
  apply (unreachable_upstream_is_unhandled (U := ascii_text) (P := exact_types) "London"
           unreachable_world "secret").
  - vm_compute. reflexivity.
  - discriminate.
  - reflexivity.
Defined.

Lemma undecodable_200_is_unhandled_witness :
  get_weather (U := ascii_text) (P := exact_types) "London" (world_of garbled_response)
  = ((request_log "London" "secret" garbled_response ++ [EJson])%list,
     Raise JSONDecodeError).
Proof.
  apply (undecodable_200_is_unhandled (U := ascii_text) (P := exact_types) "London"
           (world_of garbled_response) "secret" garbled_response).
  - vm_compute. reflexivity.
  - discriminate.
  - reflexivity.
  - reflexivity.
  - reflexivity.
Defined.

Lemma http_errors_classified_witness :
  (502 = 500 ∧ upstream_failure_detail = missing_key_detail
   ∧ (environ (world_of (error_response 503)) !! api_key_var = None
      ∨ environ (world_of (error_response 503)) !! api_key_var = Some ""))
  ∨ ∃ api_key response,
      environ (world_of (error_response 503)) !! api_key_var = Some api_key
      ∧ upstream (world_of (error_response 503)) api_url
          (query_parameters "London" api_key) = Some response
      ∧ ((502 = 404 ∧ upstream_failure_detail = not_found_detail "London"
          ∧ status_code response = 404)
         ∨ (502 = 502 ∧ upstream_failure_detail = upstream_failure_detail
            ∧ status_code response ≠ 200 ∧ status_code response ≠ 404)).
Proof.
  apply (http_errors_classified (U := ascii_text) (P := exact_types) "London"
           (world_of (error_response 503)) 502 upstream_failure_detail).
  vm_compute. reflexivity.
Defined.

Lemma report_needs_complete_200_witness :
  ∃ api_key data name temp humidity description speed,
    decoded_200 london_world "London" api_key data
    ∧ select data name_path = Some name
    ∧ select data temp_path = Some temp
    ∧ select data humidity_path = Some humidity
    ∧ select data description_path = Some (VStr description)
    ∧ select data speed_path = Some speed
    ∧ validate_str (Pydantic := exact_types) name = Some "London"
    ∧ validate_float (Pydantic := exact_types) temp = Some 11.5%float
    ∧ validate_int (Pydantic := exact_types) humidity = Some 81
    ∧ "Light rain" = str_capitalize (Unicode := ascii_text) description
    ∧ validate_float (Pydantic := exact_types) speed = Some 4.5%float.
Proof.
  apply (report_needs_complete_200 (U := ascii_text) (P := exact_types) "London" london_world
           {| city := "London"; temperature_celsius := 11.5%float;
              humidity_percent := 81; weather_description := "Light rain";
              wind_speed_mps := 4.5%float |}).
  vm_compute. reflexivity.
Defined.

Lemma report_ignores_requested_city_witness :
  (get_weather (U := ascii_text) (P := exact_types) "London" london_world).2
  = (get_weather (U := ascii_text) (P := exact_types) "Londres" london_world).2
  ∧ ∀ r, (get_weather (U := ascii_text) (P := exact_types) "London" london_world).2
         = Return r →
      ∃ data name,
        json london_response = Some data
        ∧ select data name_path = Some name
        ∧ validate_str (Pydantic := exact_types) name = Some (city r)
        ∧ ∀ s, name = VStr s → city r = s.
Proof.
  apply (report_ignores_requested_city (U := ascii_text) (P := exact_types)
           "London" "Londres" london_world "secret" london_response).
  - vm_compute. reflexivity.
  - discriminate.
  - reflexivity.
  - reflexivity.
  - reflexivity.
Defined.

Lemma report_ignores_other_members_witness :
  (get_weather (U := ascii_text) (P := exact_types) "London" london_world).2
  = (get_weather (U := ascii_text) (P := exact_types) "London" (world_of (ok_response verbose_json))).2.
Proof.
  apply (report_ignores_other_members (U := ascii_text) (P := exact_types) "London" "London"
           london_world (world_of (ok_response verbose_json)) "secret" "secret"
           london_json verbose_json).
  - decoded.
  - decoded.
  - intros path Hpath. unfold expected_fields in Hpath.
    repeat (apply elem_of_cons in Hpath as [->|Hpath];
            [split; [eexists|]; vm_compute; reflexivity|]).
    by apply elem_of_nil in Hpath.
Defined.

Lemma not_found_identifies_city_witness : "São Paulo" = "São Paulo".
Proof.
  apply (not_found_identifies_city (U := ascii_text) (P := exact_types) "São Paulo" "São Paulo"
           (world_of (error_response 404))
           (world_of {| status_code := 404; text := ""; json := None |})
           "secret" "secret"
           (error_response 404) {| status_code := 404; text := ""; json := None |}).
  - vm_compute. reflexivity.
  - discriminate.
  - reflexivity.
  - reflexivity.
  - vm_compute. reflexivity.
  - discriminate.
  - reflexivity.
  - reflexivity.
  - vm_compute. reflexivity.
Defined.

Lemma non_object_document_raises_witness :
  (get_weather (U := ascii_text) (P := exact_types) "London" (world_of (ok_response array_json))).2
  = Raise AttributeError.
Proof.
  apply (non_object_document_raises (U := ascii_text) (P := exact_types) "London"
           (world_of (ok_response array_json)) "secret" array_json).
  - decoded.
  - discriminate.
Defined.

Lemma absent_main_raises_witness :
  (get_weather (U := ascii_text) (P := exact_types) "London" (world_of (ok_response no_main_json))).2
  = Raise KeyError.
Proof.
  apply (absent_main_raises (U := ascii_text) (P := exact_types) "London"
           (world_of (ok_response no_main_json)) "secret"
           {[ "name" := VStr "London";
              "weather" := VList [VDict {[ "description" := VStr "light rain" ]}];
              "wind" := VDict {[ "speed" := VFloat 4.5%float ]} ]}).
  - decoded.
  - vm_compute. reflexivity.
Defined.

Lemma empty_weather_raises_witness :
  (get_weather (U := ascii_text) (P := exact_types) "London" (world_of (ok_response empty_weather_json))).2
  = Raise IndexError.
Proof.
  apply (empty_weather_raises (U := ascii_text) (P := exact_types) "London"
           (world_of (ok_response empty_weather_json)) "secret" empty_weather_json
           (VFloat 11.5%float) (VInt 81)).
  - decoded.
  - vm_compute. reflexivity.
  - vm_compute. reflexivity.
  - vm_compute. reflexivity.
Defined.

Lemma non_string_description_raises_witness :
  (get_weather (U := ascii_text) (P := exact_types) "London"
     (world_of (ok_response null_description_json))).2
  = Raise AttributeError.
Proof.
  apply (non_string_description_raises (U := ascii_text) (P := exact_types) "London"
           (world_of (ok_response null_description_json)) "secret"
           null_description_json (VFloat 11.5%float) (VInt 81) VNone).
  - decoded.
  - vm_compute. reflexivity.
  - vm_compute. reflexivity.
  - vm_compute. reflexivity.
  - discriminate.
Defined.


Lemma returned_description_is_capitalized_witness :
  ascii_capitalized "Light rain" = true
  ∧ str_capitalize (Unicode := ascii_text) "Light rain" = "Light rain".
Proof.
  apply (returned_description_is_capitalized (U := ascii_text) (P := exact_types)
           "London" (world_of shouting_response) "secret" shouting_json "light RAIN"
           {| city := "London"; temperature_celsius := 11.5%float;
              humidity_percent := 81; weather_description := "Light rain";
              wind_speed_mps := 4.5%float |}).
  - decoded.
  - vm_compute. reflexivity.
  - reflexivity.
  - vm_compute. reflexivity.
Defined.
